(** * The compact PID controller of PIDcontroller/PID_most_compact_implementation

    A shallow embedding of the Python class [PID] (its constructor and its
    [Update] method) and the properties its specification states about it.

    Numbers.  The code computes with whatever Python numbers the caller
    hands in, and itself starts the terms at the float [0.0].  A number is
    therefore an int (unbounded, [Z]) or a float (binary64, the primitive
    [float]).  Arithmetic is Python's: two ints are combined exactly;
    otherwise an int operand is first converted to the nearest float
    (ties to even), which raises [OverflowError] when the int is out of
    range, and the operation is the IEEE 754 one, which rounds and may
    yield an infinity or NaN.  [/] raises [ZeroDivisionError] on a zero
    divisor.  Comparisons of an int with a float are exact.

    Effects.  [Update] mutates the fields of [self], may read the wall
    clock ([time.time()], a float) and may raise.  The embedding threads
    the object through a small monad that carries the clock reading of the
    call and either returns a value or raises, in both cases with the
    object as the statements executed so far left it. *)

From Stdlib Require Import ZArith Floats List Bool Lia Sorted.
Import ListNotations.

Local Open Scope Z_scope.

(** ** Python numbers *)

Inductive num : Type :=
| Int (z : Z)
| Flt (f : float).

Inductive exn : Type := ZeroDivisionError | OverflowError.

(** The result of an operation: a value, or the exception it raises. *)
Definition res (A : Type) : Type := (exn + A)%type.

Definition rbind {A B} (r : res A) (k : A -> res B) : res B :=
  match r with inl e => inl e | inr a => k a end.

(** The float nearest to an int, ties to even. *)
Definition Z2SF (z : Z) : spec_float := binary_normalize prec emax z 0 false.

(** [float(z)], as the arithmetic applies it to an int operand: "int too
    large to convert to float" when the nearest float is out of range. *)
Definition float_of_int (z : Z) : res float :=
  match Z2SF z with
  | S754_infinity _ => inl OverflowError
  | x => inr (SF2Prim x)
  end.

Definition as_float (v : num) : res float :=
  match v with Int z => float_of_int z | Flt f => inr f end.

(** An operation with at least one float operand: both operands are
    taken as floats, the left one first. *)
Definition float_op (op : float -> float -> float) (a b : num) : res num :=
  rbind (as_float a) (fun x => rbind (as_float b) (fun y => inr (Flt (op x y)))).

(** [a + b], [a - b], [a * b]. *)
Definition py_add (a b : num) : res num :=
  match a, b with
  | Int x, Int y => inr (Int (x + y))
  | _, _ => float_op PrimFloat.add a b
  end.

Definition py_sub (a b : num) : res num :=
  match a, b with
  | Int x, Int y => inr (Int (x - y))
  | _, _ => float_op PrimFloat.sub a b
  end.

Definition py_mul (a b : num) : res num :=
  match a, b with
  | Int x, Int y => inr (Int (x * y))
  | _, _ => float_op PrimFloat.mul a b
  end.

(** [a / b] on two ints: the float nearest to the exact quotient, "integer
    division result too large for a float" when that is out of range. *)
Definition int_truediv (a b : Z) : res float :=
  if b =? 0 then inl ZeroDivisionError
  else
    let s := xorb (a <? 0) (b <? 0) in
    match a with
    | Z0 => inr (if s then neg_zero else zero)
    | _ =>
      let '(q, e, l) := SFdiv_core_binary prec emax (Z.abs a) 0 (Z.abs b) 0 in
      match binary_round_aux prec emax s q e l with
      | S754_infinity _ => inl OverflowError
      | x => inr (SF2Prim x)
      end
    end.

Definition is_zero (v : num) : bool :=
  match v with Int z => z =? 0 | Flt f => (f =? 0)%float end.

(** [a / b].  With a float operand both operands are converted, then a
    zero divisor raises; an int divisor converts to zero only if it is 0,
    so the test is made on the divisor as it was given. *)
Definition py_truediv (a b : num) : res num :=
  match a, b with
  | Int x, Int y => rbind (int_truediv x y) (fun q => inr (Flt q))
  | _, _ =>
    rbind (as_float a) (fun x =>
    rbind (as_float b) (fun y =>
    if is_zero b then inl ZeroDivisionError else inr (Flt (x / y)%float)))
  end.

(** [v <= 0.0]; an int is compared with the float exactly. *)
Definition py_le_zero (v : num) : bool :=
  match v with Int z => z <=? 0 | Flt f => (f <=? 0)%float end.

(** Exact comparison of an int with a float, as [==] and [<=] make it. *)
Definition int_float_compare (z : Z) (f : float) : option comparison :=
  match Prim2SF f with
  | S754_nan => None
  | S754_infinity s => Some (if s then Gt else Lt)
  | S754_zero _ => Some (z ?= 0)
  | S754_finite s m e =>
    let v := cond_Zopp s (Zpos m) in
    Some (if 0 <=? e then z ?= v * 2 ^ e else z * 2 ^ (- e) ?= v)
  end.

(** [a == b] and [a <= b]. *)
Definition py_eq (a b : num) : bool :=
  match a, b with
  | Int x, Int y => x =? y
  | Flt x, Flt y => (x =? y)%float
  | Int x, Flt y | Flt y, Int x =>
    match int_float_compare x y with Some Eq => true | _ => false end
  end.

Definition py_le (a b : num) : bool :=
  match a, b with
  | Int x, Int y => x <=? y
  | Flt x, Flt y => (x <=? y)%float
  | Int x, Flt y =>
    match int_float_compare x y with Some (Lt | Eq) => true | _ => false end
  | Flt x, Int y =>
    match int_float_compare y x with Some (Gt | Eq) => true | _ => false end
  end.

(** ** The object *)

(** The attributes that [__init__] creates, under their Python names. *)
Record PID : Type := mkPID {
  Kp : num;  Ki : num;  Kd : num;
  Cp : num;  Ci : num;  Cd : num;
  previous_time : num;
  previous_error : num
}.

(** Attribute assignment, [self.x = v]. *)
Definition set_Cp (v : num) (self : PID) : PID :=
  mkPID (Kp self) (Ki self) (Kd self) v (Ci self) (Cd self)
        (previous_time self) (previous_error self).
Definition set_Ci (v : num) (self : PID) : PID :=
  mkPID (Kp self) (Ki self) (Kd self) (Cp self) v (Cd self)
        (previous_time self) (previous_error self).
Definition set_Cd (v : num) (self : PID) : PID :=
  mkPID (Kp self) (Ki self) (Kd self) (Cp self) (Ci self) v
        (previous_time self) (previous_error self).
Definition set_previous_time (v : num) (self : PID) : PID :=
  mkPID (Kp self) (Ki self) (Kd self) (Cp self) (Ci self) (Cd self)
        v (previous_error self).
Definition set_previous_error (v : num) (self : PID) : PID :=
  mkPID (Kp self) (Ki self) (Kd self) (Cp self) (Ci self) (Cd self)
        (previous_time self) v.

(** ** The method monad *)

(** What a method call leaves behind: a returned value or a raised
    exception, and the object. *)
Inductive outcome (A : Type) : Type :=
| Return (a : A) (self : PID)
| Raise (e : exn) (self : PID).
Arguments Return {A} a self.
Arguments Raise {A} e self.

(** A method body: it sees the wall clock and the object. *)
Definition M (A : Type) : Type := float -> PID -> outcome A.

Definition ret {A} (a : A) : M A := fun _ self => Return a self.

Definition bind {A B} (m : M A) (k : A -> M B) : M B :=
  fun now self =>
    match m now self with
    | Return a self' => k a now self'
    | Raise e self' => Raise e self'
    end.

(** An arithmetic operation inside a method: its exception leaves the
    method, with the object as it is at that point. *)
Definition lift {A} (r : res A) : M A :=
  fun _ self => match r with inl e => Raise e self | inr a => Return a self end.

(** Reading an attribute of [self] and updating [self]. *)
Definition attr {A} (f : PID -> A) : M A := fun _ self => Return (f self) self.
Definition assign (f : PID -> PID) : M unit := fun _ self => Return tt (f self).

(** [time.time()]. *)
Definition time_time : M num := fun now self => Return (Flt now) self.

Declare Scope pid_scope.
Delimit Scope pid_scope with pid.
Notation "x <- m ;; k" := (bind m (fun x => k))
  (at level 61, m at next level, right associativity) : pid_scope.
Notation "m ;; k" := (bind m (fun _ => k))
  (at level 61, right associativity) : pid_scope.

(** ** The class *)

(** [PID.__init__(self, Kp, Ki, Kd, origin_time=None)]; [now] is what
    [time.time()] answers when it is asked. *)
Definition init (now : float) (Kp Ki Kd : num) (origin_time : option num) : PID :=
  let origin_time :=
    match origin_time with None => Flt now | Some t => t end in
  mkPID Kp Ki Kd (Flt 0) (Flt 0) (Flt 0) origin_time (Flt 0).

(** [PID.Update(self, error, current_time=None)]. *)
Definition Update (error : num) (current_time : option num) : M num :=
  (current_time <- match current_time with
                   | None => time_time
                   | Some t => ret t
                   end ;;
   previous_time0 <- attr previous_time ;;
   dt <- lift (py_sub current_time previous_time0) ;;
   if py_le_zero dt then ret (Int 0)
   else
     previous_error0 <- attr previous_error ;;
     de <- lift (py_sub error previous_error0) ;;
     assign (set_Cp error) ;;
     Ci0 <- attr Ci ;;
     p <- lift (py_mul error dt) ;;
     Ci1 <- lift (py_add Ci0 p) ;;
     assign (set_Ci Ci1) ;;
     q <- lift (py_truediv de dt) ;;
     assign (set_Cd q) ;;
     assign (set_previous_time current_time) ;;
     assign (set_previous_error error) ;;
     kp <- attr Kp ;; cp <- attr Cp ;;
     a <- lift (py_mul kp cp) ;;
     ki <- attr Ki ;; ci <- attr Ci ;;
     b <- lift (py_mul ki ci) ;;
     ab <- lift (py_add a b) ;;
     kd <- attr Kd ;; cd <- attr Cd ;;
     c <- lift (py_mul kd cd) ;;
     lift (py_add ab c))%pid.

(** The timestamp a call works with: the argument, or the clock. *)
Definition stamp_of (now : float) (current_time : option num) : num :=
  match current_time with None => Flt now | Some t => t end.

(** The object after a call, however the call ended. *)
Definition object {A} (o : outcome A) : PID :=
  match o with Return _ self => self | Raise _ self => self end.

(** The value a call returned, if it returned. *)
Definition returned {A} (o : outcome A) : option A :=
  match o with Return a _ => Some a | Raise _ _ => None end.

(** The [return] expression of [Update], on an object. *)
Definition output (self : PID) : res num :=
  rbind (py_mul (Kp self) (Cp self)) (fun a =>
  rbind (py_mul (Ki self) (Ci self)) (fun b =>
  rbind (py_add a b) (fun ab =>
  rbind (py_mul (Kd self) (Cd self)) (fun c =>
  py_add ab c)))).

(** [Update] read statement by statement: where it can leave, and with
    which object.  [Update_eq] below shows it is [Update]. *)
Definition Update_trace (error : num) (t : num) (self : PID) : outcome num :=
  match py_sub t (previous_time self) with
  | inl e => Raise e self
  | inr dt =>
    if py_le_zero dt then Return (Int 0) self
    else
      match py_sub error (previous_error self) with
      | inl e => Raise e self
      | inr de =>
        let self1 := set_Cp error self in
        match rbind (py_mul error dt) (py_add (Ci self)) with
        | inl e => Raise e self1
        | inr ci =>
          let self2 := set_Ci ci self1 in
          match py_truediv de dt with
          | inl e => Raise e self2
          | inr q =>
            let self3 :=
              set_previous_error error (set_previous_time t (set_Cd q self2)) in
            match output self3 with
            | inl e => Raise e self3
            | inr r => Return r self3
            end
          end
        end
      end
  end.

(** ** Sequences of calls *)

(** One call of [Update] as the caller sees it: what the clock reads at
    that moment, and the two arguments. *)
Record call : Type := mkCall {
  clock : float;
  error_arg : num;
  time_arg : option num
}.

Definition stamp (c : call) : num := stamp_of (clock c) (time_arg c).

Definition step (self : PID) (c : call) : PID :=
  object (Update (error_arg c) (time_arg c) (clock c) self).

Definition run (cs : list call) (self : PID) : PID := fold_left step cs self.

(** The object before the first call and after each call. *)
Fixpoint history (cs : list call) (self : PID) : list PID :=
  self :: match cs with
          | [] => []
          | c :: cs' => history cs' (step self c)
          end.

(** How each call of a sequence ends. *)
Fixpoint outcomes (cs : list call) (self : PID) : list (outcome num) :=
  match cs with
  | [] => []
  | c :: cs' =>
    Update (error_arg c) (time_arg c) (clock c) self :: outcomes cs' (step self c)
  end.

(** ** Notions used in the statements *)

(** Same gains. *)
Definition same_gains (a b : PID) : Prop :=
  Kp a = Kp b /\ Ki a = Ki b /\ Kd a = Kd b.

Definition is_float (v : num) : Prop :=
  match v with Flt _ => True | Int _ => False end.

Definition is_int (v : num) : Prop :=
  match v with Int _ => True | Flt _ => False end.


(** A float that is not an infinity. *)
Definition not_infinite (v : num) : Prop :=
  match v with Flt f => is_infinity f = false | Int _ => False end.

(** All fields are floats. *)
Definition floats (self : PID) : Prop :=
  is_float (Kp self) /\ is_float (Ki self) /\ is_float (Kd self) /\
  is_float (Cp self) /\ is_float (Ci self) /\ is_float (Cd self) /\
  is_float (previous_time self) /\ is_float (previous_error self).

(** The Python number [v] is the integer [z], written as an int or as a
    float: [1] or [1.0]. *)
Definition denotes (z : Z) (v : num) : Prop :=
  v = Int z \/ v = Flt (SF2Prim (Z2SF z)).

(** The two objects have pairwise [==] fields. *)
Definition fields_eq (a b : PID) : bool :=
  py_eq (Kp a) (Kp b) && py_eq (Ki a) (Ki b) && py_eq (Kd a) (Kd b) &&
  py_eq (Cp a) (Cp b) && py_eq (Ci a) (Ci b) && py_eq (Cd a) (Cd b) &&
  py_eq (previous_time a) (previous_time b) &&
  py_eq (previous_error a) (previous_error b).

(** ** Arithmetic facts *)









Lemma Prim2SF_zero : Prim2SF 0%float = S754_zero false.
Proof. reflexivity. Qed.

(** A number that is not [<= 0.0] is not zero: it is positive or NaN. *)
Lemma guard_passed_nonzero (dt : num) : py_le_zero dt = false -> is_zero dt = false.
Proof.
  destruct dt as [z|f]; cbn [py_le_zero is_zero].
  - intro H. apply Z.leb_gt in H. apply Z.eqb_neq. lia.
  - rewrite FloatAxioms.leb_spec, FloatAxioms.eqb_spec, Prim2SF_zero.
    destruct (Prim2SF f) as [s|s| |s m e]; cbn; try congruence;
      destruct s; cbn; congruence.
Qed.

(** ** [Update], statement by statement *)

Lemma Update_stamp (error : num) (current_time : option num) (now : float) (self : PID) :
  Update error current_time now self =
  Update error (Some (stamp_of now current_time)) now self.
Proof. destruct current_time; reflexivity. Qed.

Ltac simpl_fields :=
  cbn [set_previous_error set_previous_time set_Cd set_Ci set_Cp
       Kp Ki Kd Cp Ci Cd previous_time previous_error].

Lemma Update_eq (error : num) (current_time : option num) (now : float) (self : PID) :
  Update error current_time now self
  = Update_trace error (stamp_of now current_time) self.
Proof.
  rewrite Update_stamp. generalize (stamp_of now current_time) as t. intro t.
  unfold Update, Update_trace, output, bind, lift, attr, assign, rbind, ret.
  destruct (py_sub t (previous_time self)) as [e|dt]; [reflexivity|].
  destruct (py_le_zero dt); [reflexivity|].
  destruct (py_sub error (previous_error self)) as [e|de]; [reflexivity|].
  simpl_fields.
  destruct (py_mul error dt) as [e|p]; [reflexivity|].
  destruct (py_add (Ci self) p) as [e|ci]; [reflexivity|].
  destruct (py_truediv de dt) as [e|q]; [reflexivity|].
  simpl_fields.
  destruct (py_mul (Kp self) error) as [e|a]; [reflexivity|]. simpl_fields.
  destruct (py_mul (Ki self) ci) as [e|b]; [reflexivity|]. simpl_fields.
  destruct (py_add a b) as [e|ab]; [reflexivity|]. simpl_fields.
  destruct (py_mul (Kd self) q) as [e|c]; [reflexivity|]. simpl_fields.
  destruct (py_add ab c); reflexivity.
Qed.



(** ** Facts on binary64 *)

Lemma digits2_pos_size (m : positive) : digits2_pos m = Pos.size m.
Proof. induction m; cbn; congruence. Qed.

Lemma digits2_bounds (m : positive) :
  2 ^ (Zpos (digits2_pos m) - 1) <= Zpos m < 2 ^ Zpos (digits2_pos m).
Proof.
  rewrite digits2_pos_size.
  pose proof (Pos.size_gt m) as Hgt. pose proof (Pos.size_le m) as Hle.
  apply Pos2Z.pos_lt_pos in Hgt. apply Pos2Z.pos_le_pos in Hle.
  rewrite Pos2Z.inj_pow in Hgt, Hle.
  split; [|exact Hgt].
  replace (Zpos (Pos.size m)) with (Z.succ (Zpos (Pos.size m) - 1)) in Hle by lia.
  rewrite Z.pow_succ_r in Hle by lia.
  change (Zpos m~0) with (2 * Zpos m) in Hle. lia.
Qed.

Lemma iter_xO_pow (d m : positive) : Zpos (Pos.iter xO m d) = Zpos m * 2 ^ Zpos d.
Proof.
  induction d as [|d IH] using Pos.peano_ind.
  - cbn. lia.
  - rewrite Pos.iter_succ, Pos2Z.inj_succ, Z.pow_succ_r by lia.
    change (Zpos (Pos.iter xO m d)~0) with (2 * Zpos (Pos.iter xO m d)).
    rewrite IH. lia.
Qed.

Lemma shl_align_fst (m : positive) (e e' : Z) :
  e' <= e -> Zpos (fst (shl_align m e e')) = Zpos m * 2 ^ (e - e').
Proof.
  intro H. unfold shl_align.
  destruct (e' - e) as [|d|d] eqn:E.
  - replace (e - e') with 0 by lia. cbn [fst]. lia.
  - lia.
  - cbn [fst]. rewrite iter_xO_pow. f_equal. f_equal. lia.
Qed.

(** What validity says of a finite binary64 number. *)
Lemma bounded_canonical (m : positive) (e : Z) :
  bounded prec emax m e = true ->
  Zpos (digits2_pos m) <= 53 /\ -1074 <= e /\
  (-1074 < e -> Zpos (digits2_pos m) = 53).
Proof.
  unfold bounded, canonical_mantissa, fexp, SpecFloat.emin, prec, emax.
  intro H. apply andb_prop in H as [H _]. apply Z.eqb_eq in H. lia.
Qed.

Lemma shr_1_nonneg (mrs : shr_record) : 0 <= shr_m mrs -> 0 <= shr_m (shr_1 mrs).
Proof.
  destruct mrs as [m r s]. destruct m as [|p|p]; cbn; [lia| |lia].
  destruct p; cbn; lia.
Qed.

Lemma iter_shr_1_nonneg (p : positive) (mrs : shr_record) :
  0 <= shr_m mrs -> 0 <= shr_m (iter_pos shr_1 p mrs).
Proof.
  revert mrs. induction p as [p IH|p IH|]; intros mrs H; cbn.
  - apply IH, IH. now apply shr_1_nonneg.
  - now apply IH, IH.
  - now apply shr_1_nonneg.
Qed.

Lemma shr_fexp_nonneg (m e : Z) (l : location) :
  0 <= m -> 0 <= shr_m (fst (shr_fexp prec emax m e l)).
Proof.
  intro H. unfold shr_fexp, shr.
  assert (H0 : 0 <= shr_m (shr_record_of_loc m l))
    by (destruct l as [|[]]; exact H).
  destruct (fexp prec emax (Zdigits2 m + e) - e); cbn [fst];
    [exact H0 | now apply iter_shr_1_nonneg | exact H0].
Qed.

Lemma binary_round_aux_not_nan (s : bool) (m e : Z) (l : location) :
  0 <= m -> binary_round_aux prec emax s m e l <> S754_nan.
Proof.
  intro H. unfold binary_round_aux.
  pose proof (shr_fexp_nonneg m e l H) as H1.
  destruct (shr_fexp prec emax m e l) as [mrs' e'] eqn:E1. cbn [fst] in H1.
  set (m' := round_nearest_even (shr_m mrs') (loc_of_shr_record mrs')).
  assert (H2 : 0 <= m').
  { subst m'. unfold round_nearest_even.
    destruct (loc_of_shr_record mrs') as [|[]]; try lia.
    destruct (Z.even (shr_m mrs')); lia. }
  pose proof (shr_fexp_nonneg m' e' loc_Exact H2) as H3.
  destruct (shr_fexp prec emax m' e' loc_Exact) as [mrs'' e''] eqn:E2.
  cbn [fst] in H3.
  destruct (shr_m mrs'') as [|p|p]; [discriminate| |lia].
  destruct (e'' <=? emax - prec); discriminate.
Qed.





Lemma is_nan_false (f : float) : is_nan f = false -> Prim2SF f <> S754_nan.
Proof.
  unfold is_nan. rewrite FloatAxioms.eqb_spec. intros H E. rewrite E in H.
  discriminate.
Qed.




(** ** Zero gains on finite terms *)

Lemma is_finite_cases (x : float) :
  is_finite x = true ->
  (exists s, Prim2SF x = S754_zero s) \/ (exists s m e, Prim2SF x = S754_finite s m e).
Proof.
  unfold is_finite. intro H. apply negb_true_iff, orb_false_iff in H as [Hn Hi].
  pose proof (is_nan_false x Hn) as Hn'.
  destruct (Prim2SF x) as [s|s| |s m e] eqn:E.
  - left. now exists s.
  - exfalso. revert Hi. unfold is_infinity.
    rewrite FloatAxioms.eqb_spec, abs_spec, E. discriminate.
  - contradiction.
  - right. now exists s, m, e.
Qed.


Lemma zero_plus_finite (x : float) : is_finite x = true -> (0 + x)%float = x \/ exists s, Prim2SF (0 + x) = S754_zero s.
Proof.
  intro H.
  destruct (is_finite_cases x H) as [[s E]|(s & m & e & E)].
  - right. rewrite add_spec, Prim2SF_zero, E. destruct s; cbn; eauto.
  - left. apply Prim2SF_inj. rewrite add_spec, Prim2SF_zero, E. reflexivity.
Qed.




(** ** Some runs *)

(** Gains 2, 3, 5, construction at 0.5, then [Update(6, 3)]: [dt] is 2.5,
    the terms are 6, 15.0 and 2.4, and 2*6 + 3*15.0 + 5*2.4 = 69.0. *)
Example Update_run :
  Update (Int 6) (Some (Int 3)) 0%float (init 0 (Int 2) (Int 3) (Int 5) (Some (Flt 0.5)))
  = Return (Flt 69)
           (mkPID (Int 2) (Int 3) (Int 5) (Int 6) (Flt 15)
                  (Flt 0x1.3333333333333p+1) (Int 3) (Int 6)).
Proof. vm_compute. reflexivity. Qed.

(** A timestamp that is not later than [previous_time]: nothing happens. *)
Example Update_run_stale :
  Update (Int 6) (Some (Int 0)) 0%float (init 0 (Int 2) (Int 3) (Int 5) (Some (Flt 0.5)))
  = Return (Int 0) (init 0 (Int 2) (Int 3) (Int 5) (Some (Flt 0.5))).
Proof. vm_compute. reflexivity. Qed.

(** The clock stands in for a missing timestamp, in the constructor and
    in [Update]. *)
Example Update_run_clock :
  Update (Int 6) None 3%float (init 0.5 (Int 2) (Int 3) (Int 5) None)
  = Update (Int 6) (Some (Flt 3)) 0%float (init 0 (Int 2) (Int 3) (Int 5) (Some (Flt 0.5))).
Proof. vm_compute. reflexivity. Qed.

(** The quotient is the nearest float, not the fraction: [1/3]. *)
Example Update_run_rounds :
  returned (Update (Int 1) (Some (Int 3)) 0%float (init 0 (Int 0) (Int 0) (Int 1) (Some (Int 0))))
  = Some (Flt 0x1.5555555555555p-2).
Proof. vm_compute. reflexivity. Qed.

(** A product that overflows to infinity, then [0 * inf]: the call
    returns NaN. *)
Example Update_run_nan :
  returned (Update (Flt 0x1.1ccf385ebc8ap+1023) (Some (Flt 100)) 0%float
                   (init 0 (Int 1) (Int 0) (Int 1) (Some (Int 0))))
  = Some (Flt nan).
Proof. vm_compute. reflexivity. Qed.

(** Int operands are converted before a float operation: [2**53 + 1]
    becomes [2.0**53], so the call below meets the guard. *)
Example Update_run_conversion :
  Update (Int 1) (Some (Int (2 ^ 53 + 1))) 0%float
         (init 0 (Int 1) (Int 1) (Int 1) (Some (Flt 9007199254740992)))
  = Return (Int 0) (init 0 (Int 1) (Int 1) (Int 1) (Some (Flt 9007199254740992))).
Proof. vm_compute. reflexivity. Qed.

(** ** What one call does *)




(** C2, as the code has it.  When Python computes
    [dt = current_time - previous_time] and [dt <= 0.0], the call returns
    the int [0] and leaves the object as it was; a second call with the
    same timestamp does the same again. *)
Theorem Update_nonpositive_dt (self : PID)
    (now1 now2 : float) (error1 error2 : num)
    (current_time1 current_time2 : option num) (dt : num) :
  py_sub (stamp_of now1 current_time1) (previous_time self) = inr dt ->
  py_le_zero dt = true ->
  stamp_of now2 current_time2 = stamp_of now1 current_time1 ->
  Update error1 current_time1 now1 self = Return (Int 0) self /\
  Update error2 current_time2 now2
         (object (Update error1 current_time1 now1 self)) = Return (Int 0) self.
Proof.
  intros Hdt G Hsame.
  assert (E1 : Update error1 current_time1 now1 self = Return (Int 0) self).
  { rewrite Update_eq. unfold Update_trace. now rewrite Hdt, G. }
  split; [exact E1|].
  rewrite E1. cbn [object].
  rewrite Update_eq, Hsame. unfold Update_trace. now rewrite Hdt, G.
Qed.

Lemma Update_nonpositive_dt_witness :
  Update (Int 4) (Some (Int 7)) 0%float (init 0 (Int 2) (Int 3) (Int 5) (Some (Flt 10)))
    = Return (Int 0) (init 0 (Int 2) (Int 3) (Int 5) (Some (Flt 10))) /\
  Update (Flt 9) (Some (Int 7)) 1%float
         (object (Update (Int 4) (Some (Int 7)) 0%float
                         (init 0 (Int 2) (Int 3) (Int 5) (Some (Flt 10)))))
    = Return (Int 0) (init 0 (Int 2) (Int 3) (Int 5) (Some (Flt 10))).
Proof.
  exact (Update_nonpositive_dt (init 0 (Int 2) (Int 3) (Int 5) (Some (Flt 10)))
           0 1 (Int 4) (Flt 9) (Some (Int 7)) (Some (Int 7)) (Flt (-3))
           eq_refl eq_refl eq_refl)%float.
Defined.

(** C2, as the specification words it, fails: the timestamp [-10**400] is
    below a [previous_time] of [0.0], yet the call does not return 0; the
    subtraction that computes [dt] raises [OverflowError]. *)
Lemma Update_nonpositive_dt_overflow :
  py_le (Int (- 10 ^ 400)) (previous_time (init 0 (Int 1) (Int 1) (Int 1) None)) = true /\
  Update (Int 1) (Some (Int (- 10 ^ 400))) 0%float (init 0 (Int 1) (Int 1) (Int 1) None)
    = Raise OverflowError (init 0 (Int 1) (Int 1) (Int 1) None).
Proof. split; vm_compute; reflexivity. Qed.

(** On floats a call returns, and leaves floats. *)
Lemma Update_floats
    (now : float) (self : PID) (error : num) (current_time : option num) :
  floats self -> is_float error -> is_float (stamp_of now current_time) ->
  exists r self',
    Update error current_time now self = Return r self' /\ floats self'.
Proof.
  intros Hs He Ht. rewrite Update_eq.
  destruct self as [[|kp] [|ki] [|kd] [|cp] [|ci] [|cd] [|pt] [|pe]];
    try (exfalso; cbv in Hs; tauto).
  destruct error as [|er]; [contradiction|].
  destruct (stamp_of now current_time) as [|tt]; [contradiction|].
  unfold Update_trace. cbn [previous_time py_sub float_op as_float rbind].
  destruct (py_le_zero (Flt (tt - pt))) eqn:G.
  - do 2 eexists. split; [reflexivity | exact Hs].
  - cbn [previous_error py_mul py_add float_op as_float rbind Ci].
    unfold set_Cp, set_Ci, py_truediv. cbn [as_float rbind].
    rewrite (guard_passed_nonzero _ G).
    do 2 eexists. split; [reflexivity|]. cbv. tauto.
Qed.




(** ** Three controllers with a single gain *)

Ltac split_denotes :=
  repeat match goal with
         | H : denotes _ _ |- _ => destruct H; subst
         end.

Ltac call_with H :=
  rewrite Update_eq; unfold Update_trace;
  cbn [stamp_of init previous_time object]; rewrite H.





(** C5, as the code has it.  Gains 0, 1, 0 and error 2, each written as
    an int or as a float, construction at [t0]: whenever Python computes
    both [(t0 + 1) - t0] and [(t0 + 2) - (t0 + 1)] as 1, the accumulator
    is [2.0] after [Update(2, t0 + 1)] and [4.0] after a following
    [Update(2, t0 + 2)], which returns [4.0].  It does for every int
    [t0]. *)
Theorem integral_only_accumulates :
  (forall (now now1 now2 : float) (kp ki kd e1 e2 t0 t1 t2 dt1 dt2 : num),
      denotes 0 kp -> denotes 1 ki -> denotes 0 kd ->
      denotes 2 e1 -> denotes 2 e2 ->
      py_add t0 (Int 1) = inr t1 -> py_add t0 (Int 2) = inr t2 ->
      py_sub t1 t0 = inr dt1 -> denotes 1 dt1 ->
      py_sub t2 t1 = inr dt2 -> denotes 1 dt2 ->
      let first := Update e1 (Some t1) now1 (init now kp ki kd (Some t0)) in
      let second := Update e2 (Some t2) now2 (object first) in
      Ci (object first) = Flt 2 /\
      Ci (object second) = Flt 4 /\
      returned second = Some (Flt 4)) /\
  (forall (now now1 now2 : float) (z : Z),
      let first := Update (Int 2) (Some (Int (z + 1))) now1
                          (init now (Int 0) (Int 1) (Int 0) (Some (Int z))) in
      let second := Update (Int 2) (Some (Int (z + 2))) now2 (object first) in
      Ci (object first) = Flt 2 /\
      Ci (object second) = Flt 4 /\
      returned second = Some (Flt 4)).
Proof.
  assert (H : forall (now now1 now2 : float) (kp ki kd e1 e2 t0 t1 t2 dt1 dt2 : num),
             denotes 0 kp -> denotes 1 ki -> denotes 0 kd ->
             denotes 2 e1 -> denotes 2 e2 ->
             py_sub t1 t0 = inr dt1 -> denotes 1 dt1 ->
             py_sub t2 t1 = inr dt2 -> denotes 1 dt2 ->
             let first := Update e1 (Some t1) now1 (init now kp ki kd (Some t0)) in
             let second := Update e2 (Some t2) now2 (object first) in
             Ci (object first) = Flt 2 /\
             Ci (object second) = Flt 4 /\
             returned second = Some (Flt 4)).
  { intros now now1 now2 kp ki kd e1 e2 t0 t1 t2 dt1 dt2
           Hp Hi Hd He1 He2 Hs1 Hd1 Hs2 Hd2 first second.
    assert (E1 : first = Return (Flt 2) (mkPID kp ki kd e1 (Flt 2) (Flt 2) t1 e1)).
    { subst first. call_with Hs1. split_denotes; vm_compute; reflexivity. }
    subst second. rewrite E1. cbn [object Ci].
    split; [reflexivity|].
    call_with Hs2. split_denotes; vm_compute; split; reflexivity. }
  split.
  - intros now now1 now2 kp ki kd e1 e2 t0 t1 t2 dt1 dt2
           Hp Hi Hd He1 He2 _ _ Hs1 Hd1 Hs2 Hd2.
    now apply (H now now1 now2 kp ki kd e1 e2 t0 t1 t2 dt1 dt2).
  - intros now now1 now2 z.
    apply (H now now1 now2 _ _ _ _ _ (Int z) (Int (z + 1)) (Int (z + 2))
             (Int 1) (Int 1)); try (now left);
      cbn [py_sub]; do 2 f_equal; lia.
Qed.

Lemma integral_only_accumulates_witness :
  Ci (object (Update (Int 2) (Some (Flt 1.5)) 0%float
                     (init 0 (Int 0) (Int 1) (Int 0) (Some (Flt 0.5))))) = Flt 2 /\
  Ci (object (Update (Int 2) (Some (Flt 2.5)) 0%float
                     (object (Update (Int 2) (Some (Flt 1.5)) 0%float
                                     (init 0 (Int 0) (Int 1) (Int 0) (Some (Flt 0.5)))))))
    = Flt 4 /\
  returned (Update (Int 2) (Some (Flt 2.5)) 0%float
                   (object (Update (Int 2) (Some (Flt 1.5)) 0%float
                                   (init 0 (Int 0) (Int 1) (Int 0) (Some (Flt 0.5))))))
    = Some (Flt 4).
Proof.
  apply (proj1 integral_only_accumulates 0 0 0 (Int 0) (Int 1) (Int 0) (Int 2) (Int 2)
           (Flt 0.5) (Flt 1.5) (Flt 2.5) (Flt 1) (Flt 1))%float;
    solve [now left | now right | reflexivity].
Defined.

(** C5, as the specification words it, fails: at [t0 = 1e-16] the float
    [t0 + 1] is [1.0], [dt] is [0.9999999999999999] and the accumulator
    after the first call is [1.9999999999999998], not 2. *)
Lemma integral_only_accumulates_less :
  py_add (Flt 0x1.cd2b297d889bcp-54) (Int 1) = inr (Flt 1) /\
  Ci (object (Update (Int 2) (Some (Flt 1)) 0%float
                     (init 0 (Int 0) (Int 1) (Int 0) (Some (Flt 0x1.cd2b297d889bcp-54)))))
    = Flt 0x1.fffffffffffffp+0 /\
  py_eq (Flt 0x1.fffffffffffffp+0) (Int 2) = false.
Proof. repeat split; vm_compute; reflexivity. Qed.

(** C6, as the code has it.  Gains 0, 0, 1 and errors 3 then 7, each
    written as an int or as a float, construction at [t0]: whenever Python
    computes both [(t0 + 1) - t0] and [(t0 + 2) - (t0 + 1)] as 1, the call
    [Update(7, t0 + 2)] that follows [Update(3, t0 + 1)] returns [4.0].
    It does for every int [t0]. *)
Theorem derivative_only_returns_slope :
  (forall (now now1 now2 : float) (kp ki kd e1 e2 t0 t1 t2 dt1 dt2 : num),
      denotes 0 kp -> denotes 0 ki -> denotes 1 kd ->
      denotes 3 e1 -> denotes 7 e2 ->
      py_add t0 (Int 1) = inr t1 -> py_add t0 (Int 2) = inr t2 ->
      py_sub t1 t0 = inr dt1 -> denotes 1 dt1 ->
      py_sub t2 t1 = inr dt2 -> denotes 1 dt2 ->
      let first := Update e1 (Some t1) now1 (init now kp ki kd (Some t0)) in
      let second := Update e2 (Some t2) now2 (object first) in
      returned second = Some (Flt 4)) /\
  (forall (now now1 now2 : float) (z : Z),
      let first := Update (Int 3) (Some (Int (z + 1))) now1
                          (init now (Int 0) (Int 0) (Int 1) (Some (Int z))) in
      let second := Update (Int 7) (Some (Int (z + 2))) now2 (object first) in
      returned second = Some (Flt 4)).
Proof.
  assert (H : forall (now now1 now2 : float) (kp ki kd e1 e2 t0 t1 t2 dt1 dt2 : num),
             denotes 0 kp -> denotes 0 ki -> denotes 1 kd ->
             denotes 3 e1 -> denotes 7 e2 ->
             py_sub t1 t0 = inr dt1 -> denotes 1 dt1 ->
             py_sub t2 t1 = inr dt2 -> denotes 1 dt2 ->
             let first := Update e1 (Some t1) now1 (init now kp ki kd (Some t0)) in
             let second := Update e2 (Some t2) now2 (object first) in
             returned second = Some (Flt 4)).
  { intros now now1 now2 kp ki kd e1 e2 t0 t1 t2 dt1 dt2
           Hp Hi Hd He1 He2 Hs1 Hd1 Hs2 Hd2 first second.
    assert (E1 : first = Return (Flt 3) (mkPID kp ki kd e1 (Flt 3) (Flt 3) t1 e1)).
    { subst first. call_with Hs1. split_denotes; vm_compute; reflexivity. }
    subst second. rewrite E1. cbn [object].
    call_with Hs2. split_denotes; vm_compute; reflexivity. }
  split.
  - intros now now1 now2 kp ki kd e1 e2 t0 t1 t2 dt1 dt2
           Hp Hi Hd He1 He2 _ _ Hs1 Hd1 Hs2 Hd2.
    now apply (H now now1 now2 kp ki kd e1 e2 t0 t1 t2 dt1 dt2).
  - intros now now1 now2 z.
    apply (H now now1 now2 _ _ _ _ _ (Int z) (Int (z + 1)) (Int (z + 2))
             (Int 1) (Int 1)); try (now left);
      cbn [py_sub]; do 2 f_equal; lia.
Qed.

Lemma derivative_only_returns_slope_witness :
  returned (Update (Int 7) (Some (Flt 2.5)) 0%float
                   (object (Update (Int 3) (Some (Flt 1.5)) 0%float
                                   (init 0 (Int 0) (Int 0) (Int 1) (Some (Flt 0.5))))))
    = Some (Flt 4).
Proof.
  apply (proj1 derivative_only_returns_slope 0 0 0 (Int 0) (Int 0) (Int 1) (Int 3) (Int 7)
           (Flt 0.5) (Flt 1.5) (Flt 2.5) (Flt 1) (Flt 1))%float;
    solve [now left | now right | reflexivity].
Defined.

(** C6, as the specification words it, fails: at [t0 = 1e16] the float
    [t0 + 1] is [t0], so the first call meets the guard; the second call
    sees [dt = 2.0] and [de = 7.0] and returns [3.5]. *)
Lemma derivative_only_returns_other :
  py_add (Flt 1e16) (Int 1) = inr (Flt 1e16) /\
  py_add (Flt 1e16) (Int 2) = inr (Flt 10000000000000002) /\
  returned (Update (Int 7) (Some (Flt 10000000000000002)) 0%float
                   (object (Update (Int 3) (Some (Flt 1e16)) 0%float
                                   (init 0 (Int 0) (Int 0) (Int 1) (Some (Flt 1e16))))))
    = Some (Flt 3.5) /\
  py_eq (Flt 3.5) (Int 4) = false.
Proof. repeat split; vm_compute; reflexivity. Qed.

(** ** Sequences of calls: what never changes *)

Lemma Update_trace_same_gains (error t : num) (self : PID) :
  same_gains (object (Update_trace error t self)) self.
Proof.
  unfold Update_trace, same_gains.
  destruct (py_sub t (previous_time self)); [repeat split|].
  destruct (py_le_zero n); [repeat split|].
  destruct (py_sub error (previous_error self)); [repeat split|].
  destruct (rbind (py_mul error n) (py_add (Ci self))); [repeat split|].
  destruct (py_truediv n0 n); [repeat split|].
  cbv zeta. destruct (output _); repeat split.
Qed.

Lemma step_same_gains (self : PID) (c : call) : same_gains (step self c) self.
Proof. unfold step. rewrite Update_eq. apply Update_trace_same_gains. Qed.

Lemma same_gains_trans (a b c : PID) :
  same_gains a b -> same_gains b c -> same_gains a c.
Proof. intros (Hp & Hi & Hd) (Hp' & Hi' & Hd'). repeat split; congruence. Qed.

Lemma run_same_gains (cs : list call) (self : PID) : same_gains (run cs self) self.
Proof.
  revert self. induction cs as [|c cs IH]; intro self; [repeat split|].
  cbn [run fold_left]. eapply same_gains_trans; [apply IH | apply step_same_gains].
Qed.

Lemma history_same_gains (cs : list call) (self : PID) :
  Forall (fun s => same_gains s self) (history cs self).
Proof.
  revert self. induction cs as [|c cs IH]; intro self; cbn [history].
  - constructor; [repeat split | constructor].
  - constructor; [repeat split|].
    eapply Forall_impl; [|exact (IH (step self c))].
    intros s Hs. eapply same_gains_trans; [exact Hs | apply step_same_gains].
Qed.

(** C7.  The gains are the constructor's arguments, and no sequence of
    calls of [Update] changes them: the object has the same [Kp], [Ki]
    and [Kd] before the first call and after every call, whether the
    calls return or raise. *)
Theorem gains_never_change :
  (forall now kp ki kd origin_time,
      Kp (init now kp ki kd origin_time) = kp /\
      Ki (init now kp ki kd origin_time) = ki /\
      Kd (init now kp ki kd origin_time) = kd) /\
  (forall error current_time now self,
      same_gains (object (Update error current_time now self)) self) /\
  (forall cs self,
      Forall (fun s => same_gains s self) (history cs self) /\
      same_gains (run cs self) self).
Proof.
  split; [intros; repeat split|].
  split.
  - intros error current_time now self.
    exact (step_same_gains self (mkCall now error current_time)).
  - intros cs self. split; [apply history_same_gains | apply run_same_gains].
Qed.

(** ** The accumulator and the order of updates *)

(** C8, as the code has it.  Reordering two updates with different [dt]
    can produce a different accumulator value, so no reordering
    invariance holds for the accumulator.  From origin 0, the calls
    [Update(1, 1)] and [Update(2, 4)] leave [7.0], and in the other order
    [8.0], the late call being dropped.  From an accumulator of [1e16],
    the pairs (error 1, [dt] 1) and (error -5e15, [dt] 2) leave [0.0] in
    that order and [1.0] in the other, the sum of floats not being
    associative. *)
Theorem reordering_can_change_accumulator :
  (exists (self : PID) (c1 c2 : call) (dt1 dt2 : num),
      py_sub (stamp c1) (previous_time self) = inr dt1 /\
      py_sub (stamp c2) (stamp c1) = inr dt2 /\
      py_le_zero dt1 = false /\ py_le_zero dt2 = false /\
      py_eq dt1 dt2 = false /\
      py_eq (Ci (run [c1; c2] self)) (Ci (run [c2; c1] self)) = false) /\
  (exists (self : PID) (e1 e2 dt1 dt2 ta tab tb tba : num),
      py_le_zero dt1 = false /\ py_le_zero dt2 = false /\
      py_eq dt1 dt2 = false /\
      py_add (previous_time self) dt1 = inr ta /\ py_add ta dt2 = inr tab /\
      py_add (previous_time self) dt2 = inr tb /\ py_add tb dt1 = inr tba /\
      py_eq (Ci (run [mkCall 0 e1 (Some ta); mkCall 0 e2 (Some tab)] self))
            (Ci (run [mkCall 0 e2 (Some tb); mkCall 0 e1 (Some tba)] self))
      = false).
Proof.
  split.
  - exists (init 0 (Int 0) (Int 1) (Int 0) (Some (Int 0))),
           (mkCall 0 (Int 1) (Some (Int 1))), (mkCall 0 (Int 2) (Some (Int 4))),
           (Int 1), (Int 3).
    repeat split; vm_compute; reflexivity.
  - exists (step (init 0 (Int 0) (Int 1) (Int 0) (Some (Int 0)))
                 (mkCall 0 (Flt 1e16) (Some (Int 1)))),
           (Int 1), (Int (-5 * 10 ^ 15)), (Int 1), (Int 2),
           (Int 2), (Int 4), (Int 3), (Int 4).
    repeat split; vm_compute; reflexivity.
Qed.

(** C8, as the specification words it, fails.  Two updates with different
    [dt], supplied in either order, can leave the same accumulator: from
    origin 0, error 1 with [dt = 1] and error 2 with [dt = 3] give [7.0]
    both ways.  Two calls with equal errors and different [dt], issued in
    either order, do as well: errors 2 at timestamps 1 and 4 give [8.0]
    both ways. *)
Lemma reordering_keeps_accumulator :
  ~ (Int 1 <> Int 3 ->
     Ci (run [mkCall 0 (Int 2) (Some (Int 3)); mkCall 0 (Int 1) (Some (Int 4))]
             (init 0 (Int 0) (Int 1) (Int 0) (Some (Int 0))))
     <> Ci (run [mkCall 0 (Int 1) (Some (Int 1)); mkCall 0 (Int 2) (Some (Int 4))]
                (init 0 (Int 0) (Int 1) (Int 0) (Some (Int 0))))) /\
  ~ (Int 1 <> Int 3 ->
     Ci (run [mkCall 0 (Int 2) (Some (Int 4)); mkCall 0 (Int 2) (Some (Int 1))]
             (init 0 (Int 0) (Int 1) (Int 0) (Some (Int 0))))
     <> Ci (run [mkCall 0 (Int 2) (Some (Int 1)); mkCall 0 (Int 2) (Some (Int 4))]
                (init 0 (Int 0) (Int 1) (Int 0) (Some (Int 0))))).
Proof.
  split; intro H; apply H; try discriminate; vm_compute; reflexivity.
Qed.

(** ** [previous_time] along a sequence of calls *)


Section Ordered.

(** A kind of timestamps on which [<=] is a preorder and the guard lets
    through only what is not earlier. *)
Variable P : num -> Prop.
Hypothesis P_refl : forall a, P a -> py_le a a = true.
Hypothesis P_trans :
  forall a b c, P a -> P b -> P c ->
    py_le a b = true -> py_le b c = true -> py_le a c = true.
Hypothesis P_guard :
  forall t pt dt, P t -> P pt ->
    py_sub t pt = inr dt -> py_le_zero dt = false -> py_le pt t = true.





End Ordered.










(** ** Determinism *)

(** C10, as the code has it.  With an explicit [current_time], the
    outcome of [Update] is a function of the object's fields and of the
    two arguments, as Python values, ints and floats being told apart:
    the clock is not consulted, and identical objects called with
    identical arguments return the same value and are left identical. *)
Theorem Update_deterministic
    (now1 now2 : float) (self1 self2 : PID) (error1 error2 t1 t2 : num) :
  self1 = self2 -> error1 = error2 -> t1 = t2 ->
  Update error1 (Some t1) now1 self1 = Update error2 (Some t2) now2 self2.
Proof.
  intros -> -> ->. rewrite !Update_eq. reflexivity.
Qed.

Lemma Update_deterministic_witness :
  Update (Int 4) (Some (Flt 12)) 0%float (init 0 (Int 1) (Int 2) (Int 3) (Some (Int 10)))
  = Update (Int 4) (Some (Flt 12)) 7%float (init 5 (Int 1) (Int 2) (Int 3) (Some (Int 10))).
Proof.
  exact (Update_deterministic 0 7
           (init 0 (Int 1) (Int 2) (Int 3) (Some (Int 10)))
           (init 5 (Int 1) (Int 2) (Int 3) (Some (Int 10)))
           (Int 4) (Int 4) (Flt 12) (Flt 12) eq_refl eq_refl eq_refl)%float.
Defined.

(** C10, as the specification words it, fails.  Fields that are equal
    ([==]) are not enough: a [previous_time] of [2**53] as an int and as a
    float are equal, yet [Update(1, 2**53 + 1)] sees [dt = 1] on the
    first, updates and returns [3.0], and sees [dt = 0.0] on the second
    and returns 0. *)
Lemma Update_depends_on_number_type :
  fields_eq (init 0 (Int 1) (Int 1) (Int 1) (Some (Int (2 ^ 53))))
            (init 0 (Int 1) (Int 1) (Int 1) (Some (Flt 9007199254740992))) = true /\
  returned (Update (Int 1) (Some (Int (2 ^ 53 + 1))) 0%float
                   (init 0 (Int 1) (Int 1) (Int 1) (Some (Int (2 ^ 53)))))
    = Some (Flt 3) /\
  returned (Update (Int 1) (Some (Int (2 ^ 53 + 1))) 0%float
                   (init 0 (Int 1) (Int 1) (Int 1) (Some (Flt 9007199254740992))))
    = Some (Int 0) /\
  py_eq (Flt 3) (Int 0) = false.
Proof. repeat split; vm_compute; reflexivity. Qed.

(** Without a [current_time] the clock decides. *)
Example Update_reads_clock :
  returned (Update (Int 1) None 1%float (init 0 (Int 1) (Int 0) (Int 0) (Some (Int 0)))) <>
  returned (Update (Int 1) None 0%float (init 0 (Int 1) (Int 0) (Int 0) (Some (Int 0)))).
Proof. vm_compute. discriminate. Qed.

(** * Further properties of [Update] *)

(** ** Late samples *)

Lemma binary_normalize_nonpositive (m e : Z) :
  m <= 0 -> SFleb (binary_normalize prec emax m e false) (S754_zero false) = true.
Proof.
  destruct m as [|p|p]; [reflexivity | lia | intros _].
  unfold binary_normalize, binary_round.
  destruct (shl_align p e _) as [mz ez].
  pose proof (binary_round_aux_not_nan true (Zpos mz) ez loc_Exact ltac:(lia)) as Hn.
  unfold binary_round_aux in *.
  destruct (shr_fexp prec emax (Zpos mz) ez loc_Exact) as [mrs' e'].
  destruct (shr_fexp prec emax _ e' loc_Exact) as [mrs'' e''].
  destruct (shr_m mrs''); [reflexivity| |contradiction].
  destruct (e'' <=? emax - prec); reflexivity.
Qed.

(** If [x <= y], both finite, then the difference [x - y] is [<= 0]. *)
Lemma SFsub_guard_taken (x y : spec_float) :
  valid_binary x = true -> valid_binary y = true ->
  (forall s, x <> S754_infinity s) -> (forall s, y <> S754_infinity s) ->
  SFleb x y = true ->
  SFleb (SF64sub x y) (S754_zero false) = true.
Proof.
  intros Vx Vy Ix Iy.
  destruct x as [sx|sx| |sx mx ex], y as [sy|sy| |sy my ey];
    try discriminate;
    try (exfalso; eapply Ix; reflexivity);
    try (exfalso; eapply Iy; reflexivity);
    try (destruct sx, sy; cbn; congruence).
  cbn [valid_binary] in Vx, Vy.
  apply bounded_canonical in Vx as (Dx & Ex & Nx'), Vy as (Dy & Ey & Ny').
  pose proof (digits2_bounds mx) as Bx. pose proof (digits2_bounds my) as By.
  intro H. unfold SF64sub, SFsub. cbv zeta.
  apply binary_normalize_nonpositive.
  rewrite !shl_align_fst by lia.
  unfold SFleb, SFcompare in H.
  assert (P53 : 2 ^ 53 = 2 * 2 ^ 52) by reflexivity.
  assert (Hx : Zpos mx < 2 ^ 53)
    by (eapply Z.lt_le_trans; [apply Bx | apply Z.pow_le_mono_r; lia]).
  assert (Hy : Zpos my < 2 ^ 53)
    by (eapply Z.lt_le_trans; [apply By | apply Z.pow_le_mono_r; lia]).
  change (Pos.compare_cont Eq mx my) with (Pos.compare mx my) in H.
  destruct sx, sy; cbn [cond_Zopp]; try discriminate.
  - (* both negative *)
    destruct (Z.compare_spec ex ey) as [E|L|G]; try discriminate.
    + subst. rewrite Z.min_id, Z.sub_diag, Z.pow_0_r, !Z.mul_1_r.
      destruct (Pos.compare_spec mx my); cbn in H; try discriminate; lia.
    + rewrite Z.min_r by lia. rewrite Z.sub_diag, Z.pow_0_r, Z.mul_1_r.
      assert (Hp : 2 ^ 1 <= 2 ^ (ex - ey)) by (apply Z.pow_le_mono_r; lia).
      rewrite Nx' in Bx by lia.
      change (2 ^ (53 - 1)) with (2 ^ 52) in Bx. change (2 ^ 1) with 2 in Hp.
      set (q := 2 ^ (ex - ey)) in *. set (b := 2 ^ 52) in *. nia.
  - assert (0 < 2 ^ (ex - Z.min ex ey)) by (apply Z.pow_pos_nonneg; lia).
    assert (0 < 2 ^ (ey - Z.min ex ey)) by (apply Z.pow_pos_nonneg; lia).
    nia.
  - (* both positive *)
    destruct (Z.compare_spec ex ey) as [E|L|G]; try discriminate.
    + subst. rewrite Z.min_id, Z.sub_diag, Z.pow_0_r, !Z.mul_1_r.
      destruct (Pos.compare_spec mx my); cbn in H; try discriminate; lia.
    + rewrite Z.min_l by lia. rewrite Z.sub_diag, Z.pow_0_r, Z.mul_1_r.
      assert (Hp : 2 ^ 1 <= 2 ^ (ey - ex)) by (apply Z.pow_le_mono_r; lia).
      rewrite Ny' in By by lia.
      change (2 ^ (53 - 1)) with (2 ^ 52) in By. change (2 ^ 1) with 2 in Hp.
      set (q := 2 ^ (ey - ex)) in *. set (b := 2 ^ 52) in *. nia.
Qed.

Lemma is_infinity_false (f : float) (s : bool) :
  is_infinity f = false -> Prim2SF f <> S754_infinity s.
Proof.
  unfold is_infinity. rewrite FloatAxioms.eqb_spec, abs_spec. intros H E.
  rewrite E in H. discriminate.
Qed.

Lemma float_guard_taken (t pt : float) :
  is_infinity t = false -> is_infinity pt = false ->
  (t <=? pt)%float = true -> (t - pt <=? 0)%float = true.
Proof.
  intros Ht Hpt.
  rewrite !FloatAxioms.leb_spec, sub_spec, Prim2SF_zero.
  apply SFsub_guard_taken; auto using Prim2SF_valid.
  - intro s. now apply is_infinity_false.
  - intro s. now apply is_infinity_false.
Qed.

(** X1.  A sample that arrives late is dropped.  When the timestamp of a
    call is not later than [previous_time] ([<=]), both being ints or both
    being floats other than infinities, the call returns the int 0 and
    leaves the object as it was: the rounding of [dt] does not let a late
    or repeated sample through. *)
Theorem late_sample_is_dropped
    (now : float) (self : PID) (error : num) (current_time : option num) :
  let t := stamp_of now current_time in
  (is_int t /\ is_int (previous_time self)) \/
  (not_infinite t /\ not_infinite (previous_time self)) ->
  py_le t (previous_time self) = true ->
  Update error current_time now self = Return (Int 0) self.
Proof.
  intros t Hk Hle. rewrite Update_eq. fold t. unfold Update_trace.
  destruct t as [t'|t'], (previous_time self) as [pt|pt];
    try (exfalso; cbn in Hk; tauto).
  - cbn [py_sub py_le_zero]. cbn [py_le] in Hle.
    apply Z.leb_le in Hle.
    replace (t' - pt <=? 0) with true by (symmetry; apply Z.leb_le; lia).
    reflexivity.
  - destruct Hk as [[[] _]|[Ht Hpt]]. cbn in Ht, Hpt.
    cbn [py_sub float_op as_float rbind py_le_zero]. cbn [py_le] in Hle.
    now rewrite (float_guard_taken t' pt Ht Hpt Hle).
Qed.

Lemma late_sample_is_dropped_witness :
  Update (Int 6) (Some (Flt 0.25)) 0%float
         (init 0 (Int 2) (Int 3) (Int 5) (Some (Flt 0.5)))
  = Return (Int 0) (init 0 (Int 2) (Int 3) (Int 5) (Some (Flt 0.5))).
Proof.
  apply (late_sample_is_dropped 0 (init 0 (Int 2) (Int 3) (Int 5) (Some (Flt 0.5)))
           (Int 6) (Some (Flt 0.25)))%float.
  - right. split; reflexivity.
  - reflexivity.
Defined.

(** ** Calls on floats *)

(** X2.  On floats the controller never raises.  When the fields of the
    object are floats and every call of a sequence passes a float error
    and a float timestamp (or none, the clock being a float), every call
    returns, and the fields are floats after the sequence. *)
Theorem floats_never_raise (cs : list call) (self : PID) :
  floats self ->
  Forall (fun c => is_float (error_arg c) /\ is_float (stamp c)) cs ->
  Forall (fun o => exists r self', o = Return r self') (outcomes cs self) /\
  floats (run cs self).
Proof.
  intros Hs Hcs. revert self Hs.
  induction Hcs as [|c cs [He Ht] _ IH]; intros self Hs.
  - split; [constructor | exact Hs].
  - cbn [outcomes run fold_left].
    destruct (Update_floats (clock c) self (error_arg c) (time_arg c) Hs He Ht)
      as (r & self' & E & Hs').
    assert (Es : step self c = self') by (unfold step; now rewrite E).
    rewrite Es.
    destruct (IH self' Hs') as [IH1 IH2].
    split; [|exact IH2].
    constructor; [|exact IH1]. rewrite E. eauto.
Qed.

Lemma floats_never_raise_witness :
  Forall (fun o => exists r self', o = Return r self')
         (outcomes [mkCall 0 (Flt 0x1.1ccf385ebc8ap+1023) (Some (Flt 100)); mkCall 7 (Flt nan) None]
                   (init 0 (Flt 1) (Flt 0) (Flt 1) None)) /\
  floats (run [mkCall 0 (Flt 0x1.1ccf385ebc8ap+1023) (Some (Flt 100)); mkCall 7 (Flt nan) None]
              (init 0 (Flt 1) (Flt 0) (Flt 1) None)).
Proof.
  apply (floats_never_raise
           [mkCall 0 (Flt 0x1.1ccf385ebc8ap+1023) (Some (Flt 100)); mkCall 7 (Flt nan) None]
           (init 0 (Flt 1) (Flt 0) (Flt 1) None))%float.
  - cbv. tauto.
  - repeat constructor.
Defined.

(** ** What a raising call leaves behind *)


